(** * check-hf-size.py: total size of a Hugging Face model repository

    A shallow embedding of
    [src/images/artifact-downloader/check-size/check-hf-size.py] and the
    properties of its behaviour: what it prints, on which stream, which
    status it exits with and how often it asks the hub.

    The script reads [os.environ], calls [HfApi().model_info] and prints.
    Those effects are modelled by a small monad [Py] over an explicit
    world (the environment and the replies of the hub) that logs every
    call and every write in a trace. *)

From stdpp Require Import gmap strings list.
From Stdlib Require Import ZArith Ascii DecimalString DecimalPos DecimalZ.

Open Scope Z_scope.

(** ** Python values *)

(** An exception object: the names of its class and of all its ancestors,
    in method resolution order, and what [str(e)] gives. *)
Record PyExc := mkExc { exc_mro : list string; exc_str : string }.

(** [isinstance(e, cls)], which is how an [except cls] clause matches. *)
Definition isinstance (e : PyExc) (cls : string) : bool :=
  bool_decide (cls ∈ exc_mro e).

(** The built-in exceptions the interpreter itself raises in this script. *)
Definition KeyError (key : string) : PyExc :=
  mkExc ["KeyError"; "LookupError"; "Exception"; "BaseException"; "object"]
        ("'" +:+ key +:+ "'").

Definition TypeError (msg : string) : PyExc :=
  mkExc ["TypeError"; "Exception"; "BaseException"; "object"] msg.

(** One entry of [info.siblings]; [size] is an optional Python int. *)
Record RepoSibling := mkSibling { rfilename : string; size : option Z }.

(** What [model_info] returns. The script reads [siblings] only; the
    attribute holds a list of file entries or [None]. *)
Record ModelInfo := mkInfo { siblings : option (list RepoSibling) }.

(** ** The world outside the script *)

(** A call of [model_info] returns a record or raises. *)
Inductive Reply :=
| Returns (info : ModelInfo)
| Raises (e : PyExc).

(** [environ] is [os.environ]. [hub k repo_id files_metadata] is the reply
    to the call of [model_info] that comes after [k] earlier calls, so a
    second call may be answered differently from the first. *)
Record World := mkWorld {
  environ : gmap string string;
  hub : nat → string → bool → Reply
}.

(** ** Observable effects *)

Inductive Stream := Stdout | Stderr.

Inductive Event :=
| CallModelInfo (repo_id : string) (files_metadata : bool)
| Write (f : Stream) (text : string).

#[global] Instance Stream_eq_dec : EqDecision Stream.
Proof. solve_decision. Defined.

#[global] Instance Event_eq_dec : EqDecision Event.
Proof. solve_decision. Defined.

(** The calls of [model_info] in a trace, in order. *)
Fixpoint lookups (tr : list Event) : list (string * bool) :=
  match tr with
  | [] => []
  | CallModelInfo r fm :: tr' => (r, fm) :: lookups tr'
  | Write _ _ :: tr' => lookups tr'
  end.

(** Everything written to stream [f], in order. *)
Fixpoint written (f : Stream) (tr : list Event) : string :=
  match tr with
  | [] => EmptyString
  | Write g text :: tr' =>
      if bool_decide (g = f) then text +:+ written f tr' else written f tr'
  | CallModelInfo _ _ :: tr' => written f tr'
  end.

(** ** The monad of script fragments *)

(** A fragment ends with a value, with a raised exception, or in
    [sys.exit(code)]. [sys.exit] raises [SystemExit], which no clause of
    this script names; it has a constructor of its own. *)
Inductive Res (A : Type) :=
| Val (a : A)
| Exc (e : PyExc)
| SysExit (code : Z).
Arguments Val {A} a.
Arguments Exc {A} e.
Arguments SysExit {A} code.

Definition Py (A : Type) : Type := World → list Event → Res A * list Event.

#[global] Instance Py_ret : MRet Py := λ A a _ tr, (Val a, tr).

#[global] Instance Py_bind : MBind Py := λ A B k m w tr,
  match m w tr with
  | (Val a, tr') => k a w tr'
  | (Exc e, tr') => (Exc e, tr')
  | (SysExit c, tr') => (SysExit c, tr')
  end.

Definition raise {A} (e : PyExc) : Py A := λ _ tr, (Exc e, tr).

(** [sys.exit(code)] *)
Definition sys_exit {A} (code : Z) : Py A := λ _ tr, (SysExit code, tr).

(** [os.environ[key]]: a missing key raises [KeyError]. *)
Definition environ_getitem (key : string) : Py string := λ w tr,
  match environ w !! key with
  | Some v => (Val v, tr)
  | None => (Exc (KeyError key), tr)
  end.

(** [HfApi().model_info(repo_id, files_metadata=...)]: the call is logged,
    and the hub answers it as its [k]-th call, [k] being the number of
    calls made so far. *)
Definition model_info (repo_id : string) (files_metadata : bool) : Py ModelInfo :=
  λ w tr,
    let tr' := tr ++ [CallModelInfo repo_id files_metadata] in
    match hub w (length (lookups tr)) repo_id files_metadata with
    | Returns info => (Val info, tr')
    | Raises e => (Exc e, tr')
    end.

Definition newline : string := String "010"%char EmptyString.

(** [print(text, file=f)] writes the text and a newline. *)
Definition print (f : Stream) (text : string) : Py unit := λ _ tr,
  (Val (), tr ++ [Write f (text +:+ newline)]).

(** [try: body except cls1: h1 except cls2: h2 ...]: the clauses are tried
    in the order they are written, the first whose class the exception is
    an instance of runs, and an exception no clause matches goes on. An
    exit or an exception of a handler is not handled by its siblings. *)
Fixpoint dispatch {A} (clauses : list (string * (PyExc → Py A))) (e : PyExc) : Py A :=
  match clauses with
  | [] => raise e
  | (cls, handler) :: rest =>
      if isinstance e cls then handler e else dispatch rest e
  end.

Definition try_except {A} (body : Py A) (clauses : list (string * (PyExc → Py A))) : Py A :=
  λ w tr,
    match body w tr with
    | (Exc e, tr') => dispatch clauses e w tr'
    | r => r
    end.

(** ** The script *)

(** [str(n)] for an int: decimal digits, with a minus sign below zero. *)
Definition str_int (n : Z) : string := NilZero.string_of_int (Z.to_int n).

(** [f.size or 0]: [None] and [0] are false, every other int is true. *)
Definition size_or_0 (f : RepoSibling) : Z :=
  match size f with
  | Some n => if bool_decide (n = 0) then 0 else n
  | None => 0
  end.

(** [sum(xs)]: starts from 0 and adds from the left. *)
Definition py_sum (xs : list Z) : Z := fold_left Z.add xs 0.

(** [sum(f.size or 0 for f in fs)] *)
Definition total_size (fs : list RepoSibling) : Z := py_sum (size_or_0 <$> fs).

(** [for f in info.siblings]: iterating over [None] raises [TypeError]. *)
Definition iter_siblings (info : ModelInfo) : Py (list RepoSibling) :=
  match siblings info with
  | Some fs => mret fs
  | None => raise (TypeError "'NoneType' object is not iterable")
  end.

(** Lines 6 to 8, the body of the [try]. *)
Definition try_body (MODEL_PATH : string) : Py unit :=
  info ← model_info MODEL_PATH true;
  fs ← iter_siblings info;
  print Stdout (str_int (total_size fs)).

(** Lines 9 to 12. *)
Definition not_found_clause (MODEL_PATH : string) : string * (PyExc → Py unit) :=
  ("RepositoryNotFoundError", λ _,
     print Stderr ("Repository Not Found: " +:+ MODEL_PATH);;
     print Stderr "Check the model name or ensure it exists on HuggingFace.";;
     sys_exit 1).

(** Lines 13 to 17. *)
Definition gated_clause (MODEL_PATH : string) : string * (PyExc → Py unit) :=
  ("GatedRepoError", λ _,
     print Stderr ("Model requires authentication: " +:+ MODEL_PATH);;
     print Stderr "Set HF_TOKEN environment variable with a valid HuggingFace token.";;
     print Stderr ("Cannot access gated repo: " +:+ MODEL_PATH);;
     sys_exit 2).

(** Lines 18 to 20. *)
Definition exception_clause : string * (PyExc → Py unit) :=
  ("Exception", λ e,
     print Stderr ("Failed to fetch model info: " +:+ exc_str e);;
     sys_exit 3).

(** The clauses in the order of the source. *)
Definition clauses (MODEL_PATH : string) : list (string * (PyExc → Py unit)) :=
  [not_found_clause MODEL_PATH; gated_clause MODEL_PATH; exception_clause].

(** The script with the clauses of its [try] as a parameter. *)
Definition script (cl : string → list (string * (PyExc → Py unit))) : Py unit :=
  MODEL_PATH ← environ_getitem "MODEL_PATH";
  try_except (try_body MODEL_PATH) (cl MODEL_PATH).

Definition main : Py unit := script clauses.

(** ** Running the script as a process *)

(** How the process ends: with an exit status, or on an exception nothing
    caught, which the interpreter reports with a traceback. *)
Inductive Terminal :=
| Exited (code : Z)
| Crashed (e : PyExc).

Record Outcome := mkOutcome { trace : list Event; terminal : Terminal }.

(** Reaching the end of the file is exit status 0; [sys.exit(code)] is
    status [code]. *)
Definition outcome_of (r : Res unit * list Event) : Outcome :=
  match r with
  | (Val _, tr) => mkOutcome tr (Exited 0)
  | (SysExit c, tr) => mkOutcome tr (Exited c)
  | (Exc e, tr) => mkOutcome tr (Crashed e)
  end.

Definition run_py (p : Py unit) (w : World) : Outcome := outcome_of (p w []).

Definition run (w : World) : Outcome := run_py main w.

(** The status the parent process sees. For an exception that reached
    the top level the interpreter looks at its class: a [SystemExit]
    ends the process with the code it carries, which an exception of
    this model does not record, so no status is given; a
    [KeyboardInterrupt] ends it on the interrupt signal, status 130 to
    the shell; any other exception ends it with status 1 after the
    traceback. *)
Definition exit_status (t : Terminal) : option Z :=
  match t with
  | Exited c => Some c
  | Crashed e =>
      if isinstance e "SystemExit" then None
      else if isinstance e "KeyboardInterrupt" then Some 130
      else Some 1
  end.

Definition stdout (o : Outcome) : string := written Stdout (trace o).
Definition stderr (o : Outcome) : string := written Stderr (trace o).

(** The text one [print] call leaves on a stream. *)
Definition line (text : string) : string := text +:+ newline.

(** ** The client library's exceptions *)

(** The two classes the script imports from [huggingface_hub.utils]. The
    library declares [GatedRepoError] as a subclass of
    [RepositoryNotFoundError], itself an HTTP error of the hub. The
    general theorems below take that relation as a hypothesis on the
    exceptions the hub raises ([gated_is_not_found]); these two values are
    the concrete exceptions of the examples. *)
Definition RepositoryNotFoundError (msg : string) : PyExc :=
  mkExc ["RepositoryNotFoundError"; "HfHubHTTPError"; "HTTPError";
         "RequestException"; "OSError"; "Exception"; "BaseException"; "object"]
        msg.

Definition GatedRepoError (msg : string) : PyExc :=
  mkExc ("GatedRepoError" :: exc_mro (RepositoryNotFoundError msg)) msg.

(** A timeout of the HTTP client: an error that is neither of the two. *)
Definition ReadTimeout (msg : string) : PyExc :=
  mkExc ["ReadTimeout"; "Timeout"; "RequestException"; "OSError";
         "Exception"; "BaseException"; "object"] msg.

(** The interpreter's own [KeyboardInterrupt], which derives from
    [BaseException] and not from [Exception]. *)
Definition KeyboardInterrupt : PyExc :=
  mkExc ["KeyboardInterrupt"; "BaseException"; "object"] EmptyString.

(** [e] obeys the library's class hierarchy. *)
Definition gated_is_not_found (e : PyExc) : Prop :=
  isinstance e "GatedRepoError" = true →
  isinstance e "RepositoryNotFoundError" = true.

(** Every exception the hub raises obeys it. *)
Definition hub_subclassing (w : World) : Prop :=
  ∀ k repo_id fm e, hub w k repo_id fm = Raises e → gated_is_not_found e.

(** ** Worlds of the examples *)

(** [MODEL_PATH] is set to [repo_id] and the hub always gives [reply]. *)
Definition world_of (repo_id : string) (reply : Reply) : World :=
  mkWorld (<["MODEL_PATH" := repo_id]> ∅) (λ _ _ _, reply).

(** No [MODEL_PATH] in the environment. *)
Definition world_unset (reply : Reply) : World :=
  mkWorld (<["HF_TOKEN" := "hf_xxx"]> ∅) (λ _ _ _, reply).

Definition files_10_20_None : list RepoSibling :=
  [mkSibling "config.json" (Some 10);
   mkSibling "model.safetensors" (Some 20);
   mkSibling "README.md" None].

(** The total as the specification words it: the sum of the size fields,
    an absent size counting as zero. *)
Definition sum_of_sizes_spec (fs : list RepoSibling) : Z :=
  foldr (λ f acc, default 0 (size f) + acc) 0 fs.

(** Every size the hub reports is a byte count. *)
Definition sizes_are_byte_counts (fs : list RepoSibling) : Prop :=
  Forall (λ f, ∀ n, size f = Some n → 0 ≤ n) fs.

(** ** The ways through the script *)

(** How the process ends when the body of the [try] has raised [e] after
    its one call and the clauses [cl] take over. *)
Definition after_call (cl : string → list (string * (PyExc → Py unit)))
    (w : World) (MODEL_PATH : string) (e : PyExc) : Outcome :=
  outcome_of (dispatch (cl MODEL_PATH) e w [CallModelInfo MODEL_PATH true]).

Definition call_event (MODEL_PATH : string) : Event := CallModelInfo MODEL_PATH true.

Definition outcome_success (MODEL_PATH : string) (fs : list RepoSibling) : Outcome :=
  mkOutcome
    [call_event MODEL_PATH; Write Stdout (line (str_int (total_size fs)))]
    (Exited 0).

Definition outcome_not_found (MODEL_PATH : string) : Outcome :=
  mkOutcome
    [call_event MODEL_PATH;
     Write Stderr (line ("Repository Not Found: " +:+ MODEL_PATH));
     Write Stderr (line "Check the model name or ensure it exists on HuggingFace.")]
    (Exited 1).

Definition outcome_gated (MODEL_PATH : string) : Outcome :=
  mkOutcome
    [call_event MODEL_PATH;
     Write Stderr (line ("Model requires authentication: " +:+ MODEL_PATH));
     Write Stderr (line "Set HF_TOKEN environment variable with a valid HuggingFace token.");
     Write Stderr (line ("Cannot access gated repo: " +:+ MODEL_PATH))]
    (Exited 2).

Definition outcome_other (MODEL_PATH : string) (e : PyExc) : Outcome :=
  mkOutcome
    [call_event MODEL_PATH;
     Write Stderr (line ("Failed to fetch model info: " +:+ exc_str e))]
    (Exited 3).

Definition outcome_uncaught (MODEL_PATH : string) (e : PyExc) : Outcome :=
  mkOutcome [call_event MODEL_PATH] (Crashed e).

(** The exception the body of the [try] ends on, if any. *)
Definition body_raises (w : World) (MODEL_PATH : string) (e : PyExc) : Prop :=
  hub w 0 MODEL_PATH true = Raises e ∨
  (hub w 0 MODEL_PATH true = Returns (mkInfo None) ∧
   e = TypeError "'NoneType' object is not iterable").

(** The ways through the script, one constructor per way. *)
Inductive path (w : World) : Outcome → Prop :=
| path_unset :
    environ w !! "MODEL_PATH" = None →
    path w (mkOutcome [] (Crashed (KeyError "MODEL_PATH")))
| path_success MODEL_PATH fs :
    environ w !! "MODEL_PATH" = Some MODEL_PATH →
    hub w 0 MODEL_PATH true = Returns (mkInfo (Some fs)) →
    path w (outcome_success MODEL_PATH fs)
| path_not_found MODEL_PATH e :
    environ w !! "MODEL_PATH" = Some MODEL_PATH →
    body_raises w MODEL_PATH e →
    isinstance e "RepositoryNotFoundError" = true →
    path w (outcome_not_found MODEL_PATH)
| path_gated MODEL_PATH e :
    environ w !! "MODEL_PATH" = Some MODEL_PATH →
    body_raises w MODEL_PATH e →
    isinstance e "RepositoryNotFoundError" = false →
    isinstance e "GatedRepoError" = true →
    path w (outcome_gated MODEL_PATH)
| path_other MODEL_PATH e :
    environ w !! "MODEL_PATH" = Some MODEL_PATH →
    body_raises w MODEL_PATH e →
    isinstance e "RepositoryNotFoundError" = false →
    isinstance e "GatedRepoError" = false →
    isinstance e "Exception" = true →
    path w (outcome_other MODEL_PATH e)
| path_uncaught MODEL_PATH e :
    environ w !! "MODEL_PATH" = Some MODEL_PATH →
    body_raises w MODEL_PATH e →
    isinstance e "RepositoryNotFoundError" = false →
    isinstance e "GatedRepoError" = false →
    isinstance e "Exception" = false →
    path w (outcome_uncaught MODEL_PATH e).

(** ** Vocabulary of the statements *)

(** The success path: [MODEL_PATH] is set and the lookup returns a list
    of files. *)
Definition lookup_succeeds (w : World) : Prop :=
  ∃ MODEL_PATH fs,
    environ w !! "MODEL_PATH" = Some MODEL_PATH ∧
    hub w 0 MODEL_PATH true = Returns (mkInfo (Some fs)).

Definition writes_to (f : Stream) (ev : Event) : Prop :=
  ∃ text, ev = Write f text.

Fixpoint newline_free (s : string) : bool :=
  match s with
  | EmptyString => true
  | String c s' => negb (Ascii.eqb c "010") && newline_free s'
  end.

(** The script with lines 13 to 17 deleted. *)
Definition clauses_without_gated (MODEL_PATH : string) : list (string * (PyExc → Py unit)) :=
  [not_found_clause MODEL_PATH; exception_clause].

(** The environment and the reply of the hub for a gated repository that
    the token, if any, gives no access to. *)
Definition gated_world : World :=
  world_of "org/gated-model"
    (Raises (GatedRepoError "403 Client Error. Cannot access gated repo.")).

(** * Properties *)

(** ** The sum *)

Lemma size_or_0_default f : size_or_0 f = default 0 (size f).
Proof.
  unfold size_or_0. destruct (size f) as [n|]; simpl; [|done].
  case_bool_decide; congruence.
Qed.

Lemma fold_left_add_shift (xs : list Z) (a : Z) :
  fold_left Z.add xs a = a + fold_left Z.add xs 0.
Proof.
  revert a. induction xs as [|x xs IH]; intros a; simpl; [lia|].
  rewrite (IH (a + x)), (IH (0 + x)). lia.
Qed.

Lemma py_sum_cons x xs : py_sum (x :: xs) = x + py_sum xs.
Proof. unfold py_sum. simpl. apply fold_left_add_shift. Qed.

Lemma total_size_cons f fs : total_size (f :: fs) = size_or_0 f + total_size fs.
Proof. unfold total_size. rewrite fmap_cons. apply py_sum_cons. Qed.

Lemma total_size_spec fs : total_size fs = sum_of_sizes_spec fs.
Proof.
  induction fs as [|f fs IH]; [done|].
  rewrite total_size_cons, IH, size_or_0_default. done.
Qed.

Lemma total_size_nonneg fs : sizes_are_byte_counts fs → 0 ≤ total_size fs.
Proof.
  induction 1 as [|f fs Hf _ IH]; [done|].
  rewrite total_size_cons, size_or_0_default.
  destruct (size f) as [n|] eqn:E; simpl; [|lia].
  specialize (Hf n eq_refl). lia.
Qed.

(** The total depends on the size fields only. *)
Lemma total_size_sizes fs gs : size <$> fs = size <$> gs → total_size fs = total_size gs.
Proof.
  revert gs. induction fs as [|f fs IH]; intros [|g gs] H; try done.
  rewrite !fmap_cons in H. injection H as Hs Ht.
  rewrite !total_size_cons, (IH gs Ht). unfold size_or_0. by rewrite Hs.
Qed.

(** ** The paths of the script *)

(** Runs the script up to the call of the hub on line 7. *)
Ltac enter_try Henv :=
  unfold run_py, after_call, outcome_of, script, mbind, Py_bind, environ_getitem;
  rewrite Henv;
  unfold try_except, try_body, mbind, Py_bind, model_info; simpl.

Section Paths.
Variable cl : string → list (string * (PyExc → Py unit)).
Variable w : World.

(** Without [MODEL_PATH] the script stops at line 5. *)
Lemma script_unset :
  environ w !! "MODEL_PATH" = None →
  run_py (script cl) w = mkOutcome [] (Crashed (KeyError "MODEL_PATH")).
Proof.
  intros H. unfold run_py, outcome_of, script, mbind, Py_bind, environ_getitem.
  by rewrite H.
Qed.

Variable MODEL_PATH : string.
Hypothesis Henv : environ w !! "MODEL_PATH" = Some MODEL_PATH.

(** The lookup returns a list of files: line 8 prints the total. *)
Lemma script_returns fs :
  hub w 0 MODEL_PATH true = Returns (mkInfo (Some fs)) →
  run_py (script cl) w =
    mkOutcome [CallModelInfo MODEL_PATH true;
               Write Stdout (line (str_int (total_size fs)))] (Exited 0).
Proof.
  intros H. enter_try Henv. by rewrite H.
Qed.

(** The lookup raises [e]: the clauses decide. *)
Lemma script_raises e :
  hub w 0 MODEL_PATH true = Raises e →
  run_py (script cl) w = after_call cl w MODEL_PATH e.
Proof.
  intros H. enter_try Henv. by rewrite H.
Qed.

(** The lookup returns a record whose [siblings] is [None]. *)
Lemma script_returns_None :
  hub w 0 MODEL_PATH true = Returns (mkInfo None) →
  run_py (script cl) w =
    after_call cl w MODEL_PATH (TypeError "'NoneType' object is not iterable").
Proof.
  intros H. enter_try Henv. by rewrite H.
Qed.
End Paths.

(** ** Text *)

Lemma append_empty_r (s : string) : s +:+ EmptyString = s.
Proof.
  induction s as [|c s IH]; [done|].
  change (String c (s +:+ EmptyString) = String c s). by rewrite IH.
Qed.

(** What a trace of one call and one write leaves on each stream. *)
Lemma written_one_write f g r fm text :
  written f [CallModelInfo r fm; Write g text] =
    if bool_decide (g = f) then text else EmptyString.
Proof.
  cbn [written]. case_bool_decide; [apply append_empty_r|done].
Qed.

(** The text of a non-negative int does not start with a minus sign. *)
Lemma str_int_nonneg_head (t : Z) (s : string) :
  0 ≤ t → str_int t ≠ String "-" s.
Proof.
  intros Ht. unfold str_int. destruct t as [|p|p]; [done| |lia].
  simpl. unfold NilZero.string_of_uint.
  destruct (Pos.to_uint p); discriminate.
Qed.

(** ** Success *)

(** C1: when [MODEL_PATH] is set and the lookup returns a record with a
    list of files, standard output receives the sum of the size fields,
    an absent size counting as zero, and the exit status is 0; for sizes
    [10, 20, None] the text is "30". *)
Theorem success_prints_sum w MODEL_PATH fs :
  environ w !! "MODEL_PATH" = Some MODEL_PATH →
  hub w 0 MODEL_PATH true = Returns (mkInfo (Some fs)) →
  stdout (run w) = line (str_int (sum_of_sizes_spec fs)) ∧
  terminal (run w) = Exited 0 ∧
  exit_status (terminal (run w)) = Some 0 ∧
  (size <$> fs = [Some 10; Some 20; None] → stdout (run w) = line "30").
Proof.
  intros Henv Hhub. unfold run, main.
  rewrite (script_returns _ _ _ Henv _ Hhub), total_size_spec.
  unfold stdout. cbn [trace terminal exit_status]. rewrite written_one_write.
  split; [reflexivity|]. split; [reflexivity|]. split; [reflexivity|].
  intros Hs.
  rewrite <- total_size_spec, (total_size_sizes fs files_10_20_None Hs).
  reflexivity.
Qed.

Lemma success_prints_sum_witness :
  let w := world_of "org/model" (Returns (mkInfo (Some files_10_20_None))) in
  environ w !! "MODEL_PATH" = Some "org/model" ∧
  hub w 0 "org/model" true = Returns (mkInfo (Some files_10_20_None)) ∧
  stdout (run w) = line "30" ∧
  terminal (run w) = Exited 0.
Proof.
  intros w.
  destruct (success_prints_sum w "org/model" files_10_20_None)
    as (_ & Hexit & _ & H30); [reflexivity|reflexivity|].
  split; [reflexivity|]. split; [reflexivity|].
  split; [apply H30; reflexivity|exact Hexit].
Defined.

(** C5, as the code has it: when every size the hub reports is
    non-negative the printed total is non-negative, and an empty list of
    files prints "0". *)
Theorem total_nonneg_for_byte_counts w MODEL_PATH fs :
  environ w !! "MODEL_PATH" = Some MODEL_PATH →
  hub w 0 MODEL_PATH true = Returns (mkInfo (Some fs)) →
  sizes_are_byte_counts fs →
  (∃ t, 0 ≤ t ∧ stdout (run w) = line (str_int t)) ∧
  (fs = [] → stdout (run w) = line "0").
Proof.
  intros Henv Hhub Hfs. unfold run, main.
  rewrite (script_returns _ _ _ Henv _ Hhub).
  unfold stdout. cbn [trace]. rewrite written_one_write. split.
  - exists (total_size fs). split; [by apply total_size_nonneg|done].
  - by intros ->.
Qed.

Lemma total_nonneg_for_byte_counts_witness :
  let w := world_of "org/empty" (Returns (mkInfo (Some []))) in
  environ w !! "MODEL_PATH" = Some "org/empty" ∧
  hub w 0 "org/empty" true = Returns (mkInfo (Some [])) ∧
  sizes_are_byte_counts [] ∧
  stdout (run w) = line "0".
Proof.
  intros w.
  destruct (total_nonneg_for_byte_counts w "org/empty" [])
    as [_ H0]; [reflexivity|reflexivity|constructor|].
  split; [reflexivity|]. split; [reflexivity|]. split; [constructor|].
  apply H0. reflexivity.
Defined.

(** C5, as it is worded, fails: a size below zero is summed like any
    other, and the printed total is negative. *)
Lemma negative_size_prints_negative_total :
  let w := world_of "org/model" (Returns (mkInfo (Some [mkSibling "weights.bin" (Some (-5))]))) in
  environ w !! "MODEL_PATH" = Some "org/model" ∧
  terminal (run w) = Exited 0 ∧
  stdout (run w) = line "-5" ∧
  ¬ ∃ t, 0 ≤ t ∧ stdout (run w) = line (str_int t).
Proof.
  intros w. repeat split.
  intros (t & Ht & Hout).
  change (stdout (run w)) with (String "-" (line "5")) in Hout.
  destruct (str_int t) as [|c s] eqn:E; [discriminate|].
  injection Hout as Hc Hs. subst c.
  by apply (str_int_nonneg_head t s Ht).
Qed.

(** ** The outcomes of the clauses *)

Section Clauses.
Variable w : World.
Variable MODEL_PATH : string.
Variable e : PyExc.

(** The first clause matches whatever the later ones would say. *)
Lemma after_call_not_found :
  isinstance e "RepositoryNotFoundError" = true →
  after_call clauses w MODEL_PATH e = outcome_not_found MODEL_PATH.
Proof. intros H. unfold after_call. simpl. by rewrite H. Qed.

Lemma after_call_gated :
  isinstance e "RepositoryNotFoundError" = false →
  isinstance e "GatedRepoError" = true →
  after_call clauses w MODEL_PATH e = outcome_gated MODEL_PATH.
Proof. intros H1 H2. unfold after_call. simpl. by rewrite H1, H2. Qed.

Lemma after_call_other :
  isinstance e "RepositoryNotFoundError" = false →
  isinstance e "GatedRepoError" = false →
  isinstance e "Exception" = true →
  after_call clauses w MODEL_PATH e = outcome_other MODEL_PATH e.
Proof. intros H1 H2 H3. unfold after_call. simpl. by rewrite H1, H2, H3. Qed.

Lemma after_call_uncaught :
  isinstance e "RepositoryNotFoundError" = false →
  isinstance e "GatedRepoError" = false →
  isinstance e "Exception" = false →
  after_call clauses w MODEL_PATH e = outcome_uncaught MODEL_PATH e.
Proof. intros H1 H2 H3. unfold after_call. simpl. by rewrite H1, H2, H3. Qed.
End Clauses.

(** What each outcome leaves on the two streams. *)
Lemma stderr_not_found MODEL_PATH :
  stderr (outcome_not_found MODEL_PATH) =
    line ("Repository Not Found: " +:+ MODEL_PATH) +:+
    line "Check the model name or ensure it exists on HuggingFace.".
Proof. unfold stderr. cbn. by rewrite append_empty_r. Qed.

Lemma stderr_gated MODEL_PATH :
  stderr (outcome_gated MODEL_PATH) =
    line ("Model requires authentication: " +:+ MODEL_PATH) +:+
    line "Set HF_TOKEN environment variable with a valid HuggingFace token." +:+
    line ("Cannot access gated repo: " +:+ MODEL_PATH).
Proof. unfold stderr. cbn. by rewrite append_empty_r. Qed.

Lemma stderr_other MODEL_PATH e :
  stderr (outcome_other MODEL_PATH e) =
    line ("Failed to fetch model info: " +:+ exc_str e).
Proof. unfold stderr. cbn. by rewrite append_empty_r. Qed.

(** ** Failures of the lookup *)

(** C3: when the lookup raises a repository-not-found error that is not a
    gated-repository error, standard error receives "Repository Not
    Found: {id}" and the hint to check the name, and the exit status is
    1. *)
Theorem not_found_exits_1 w MODEL_PATH e :
  environ w !! "MODEL_PATH" = Some MODEL_PATH →
  hub w 0 MODEL_PATH true = Raises e →
  isinstance e "RepositoryNotFoundError" = true →
  isinstance e "GatedRepoError" = false →
  stderr (run w) =
    line ("Repository Not Found: " +:+ MODEL_PATH) +:+
    line "Check the model name or ensure it exists on HuggingFace." ∧
  stdout (run w) = EmptyString ∧
  terminal (run w) = Exited 1 ∧
  exit_status (terminal (run w)) = Some 1.
Proof.
  intros Henv Hhub Hnf _. unfold run, main.
  rewrite (script_raises _ _ _ Henv _ Hhub), after_call_not_found by done.
  split; [apply stderr_not_found|done].
Qed.

Lemma not_found_exits_1_witness :
  let e := RepositoryNotFoundError "404 Client Error." in
  let w := world_of "org/no-such-model" (Raises e) in
  environ w !! "MODEL_PATH" = Some "org/no-such-model" ∧
  hub w 0 "org/no-such-model" true = Raises e ∧
  isinstance e "RepositoryNotFoundError" = true ∧
  isinstance e "GatedRepoError" = false ∧
  terminal (run w) = Exited 1.
Proof.
  intros e w.
  split; [reflexivity|]. split; [reflexivity|].
  split; [reflexivity|]. split; [reflexivity|].
  apply (not_found_exits_1 w "org/no-such-model" e); reflexivity.
Defined.

(** C4: when the lookup fails with an error (an instance of
    [Exception]) that is neither a repository-not-found nor a
    gated-repository error, standard error receives "Failed to fetch
    model info: {error}" and the exit status is 3. *)
Theorem other_error_exits_3 w MODEL_PATH e :
  environ w !! "MODEL_PATH" = Some MODEL_PATH →
  hub w 0 MODEL_PATH true = Raises e →
  isinstance e "Exception" = true →
  isinstance e "RepositoryNotFoundError" = false →
  isinstance e "GatedRepoError" = false →
  stderr (run w) = line ("Failed to fetch model info: " +:+ exc_str e) ∧
  stdout (run w) = EmptyString ∧
  terminal (run w) = Exited 3 ∧
  exit_status (terminal (run w)) = Some 3.
Proof.
  intros Henv Hhub Hexc Hnf Hgated. unfold run, main.
  rewrite (script_raises _ _ _ Henv _ Hhub), after_call_other by done.
  split; [apply stderr_other|done].
Qed.

Lemma other_error_exits_3_witness :
  let e := ReadTimeout "Read timed out." in
  let w := world_of "org/model" (Raises e) in
  environ w !! "MODEL_PATH" = Some "org/model" ∧
  hub w 0 "org/model" true = Raises e ∧
  isinstance e "Exception" = true ∧
  isinstance e "RepositoryNotFoundError" = false ∧
  isinstance e "GatedRepoError" = false ∧
  stderr (run w) = line "Failed to fetch model info: Read timed out." ∧
  terminal (run w) = Exited 3.
Proof.
  intros e w.
  destruct (other_error_exits_3 w "org/model" e)
    as (Herr & _ & Hexit & _); try reflexivity.
  split; [reflexivity|]. split; [reflexivity|]. split; [reflexivity|].
  split; [reflexivity|]. split; [reflexivity|].
  split; [exact Herr|exact Hexit].
Defined.

(** ** A missing [MODEL_PATH] *)

(** C6: when [MODEL_PATH] is absent from the environment the script ends
    at once on an uncaught [KeyError]: no lookup was made, nothing was
    written, no clause of the [try] ran although [KeyError] is an
    [Exception], and the exit status is not 0. *)
Theorem unset_model_path_crashes w :
  environ w !! "MODEL_PATH" = None →
  run w = mkOutcome [] (Crashed (KeyError "MODEL_PATH")) ∧
  lookups (trace (run w)) = [] ∧
  isinstance (KeyError "MODEL_PATH") "Exception" = true ∧
  stderr (run w) = EmptyString ∧
  (∃ c, exit_status (terminal (run w)) = Some c ∧ c ≠ 0).
Proof.
  intros Henv. unfold run, main. rewrite (script_unset _ _ Henv).
  repeat split. by exists 1.
Qed.

Lemma unset_model_path_crashes_witness :
  let w := world_unset (Returns (mkInfo (Some files_10_20_None))) in
  environ w !! "MODEL_PATH" = None ∧
  run w = mkOutcome [] (Crashed (KeyError "MODEL_PATH")) ∧
  (∃ c, exit_status (terminal (run w)) = Some c ∧ c ≠ 0).
Proof.
  intros w.
  destruct (unset_model_path_crashes w) as (Hrun & _ & _ & _ & Hexit);
    [reflexivity|].
  split; [reflexivity|]. split; [exact Hrun|exact Hexit].
Defined.

(** ** Every path of the script *)

Lemma path_after_call w MODEL_PATH e :
  environ w !! "MODEL_PATH" = Some MODEL_PATH →
  body_raises w MODEL_PATH e →
  path w (after_call clauses w MODEL_PATH e).
Proof.
  intros Henv Hbody.
  destruct (isinstance e "RepositoryNotFoundError") eqn:Hnf.
  { rewrite after_call_not_found by done. by eapply path_not_found. }
  destruct (isinstance e "GatedRepoError") eqn:Hgated.
  { rewrite after_call_gated by done. by eapply path_gated. }
  destruct (isinstance e "Exception") eqn:Hexc.
  { rewrite after_call_other by done. by eapply path_other. }
  rewrite after_call_uncaught by done. by eapply path_uncaught.
Qed.

(** The script always ends, and on one of these ways. *)
Lemma run_path w : path w (run w).
Proof.
  unfold run, main.
  destruct (environ w !! "MODEL_PATH") as [MODEL_PATH|] eqn:Henv.
  2: { rewrite (script_unset _ _ Henv). by constructor. }
  destruct (hub w 0 MODEL_PATH true) as [[[fs|]]|e] eqn:Hhub.
  - rewrite (script_returns _ _ _ Henv _ Hhub). by apply path_success.
  - rewrite (script_returns_None _ _ _ Henv Hhub).
    apply path_after_call; [done|]. by right.
  - rewrite (script_raises _ _ _ Henv _ Hhub).
    apply path_after_call; [done|]. by left.
Qed.

(** The clauses never look at the world. *)
Lemma after_call_world w w' MODEL_PATH e :
  after_call clauses w MODEL_PATH e = after_call clauses w' MODEL_PATH e.
Proof.
  destruct (isinstance e "RepositoryNotFoundError") eqn:Hnf.
  { by rewrite !after_call_not_found. }
  destruct (isinstance e "GatedRepoError") eqn:Hgated.
  { by rewrite !after_call_gated. }
  destruct (isinstance e "Exception") eqn:Hexc.
  { by rewrite !after_call_other. }
  by rewrite !after_call_uncaught.
Qed.

(** The outcome is a function of [MODEL_PATH] and of the reply to the
    first call. *)
Lemma run_first_reply w w' MODEL_PATH :
  environ w !! "MODEL_PATH" = Some MODEL_PATH →
  environ w' !! "MODEL_PATH" = Some MODEL_PATH →
  hub w' 0 MODEL_PATH true = hub w 0 MODEL_PATH true →
  run w' = run w.
Proof.
  intros Henv Henv' Hsame. unfold run, main.
  destruct (hub w 0 MODEL_PATH true) as [[[fs|]]|e] eqn:Hhub.
  - by rewrite (script_returns _ _ _ Henv _ Hhub), (script_returns _ _ _ Henv' _ Hsame).
  - rewrite (script_returns_None _ _ _ Henv Hhub), (script_returns_None _ _ _ Henv' Hsame).
    apply after_call_world.
  - rewrite (script_raises _ _ _ Henv _ Hhub), (script_raises _ _ _ Henv' _ Hsame).
    apply after_call_world.
Qed.

(** ** One lookup *)

(** C7: when [MODEL_PATH] is set, the trace of the whole run holds exactly
    one call of [model_info], for [MODEL_PATH] with [files_metadata=True];
    what the hub would answer to any further call has no effect on the
    run. *)
Theorem lookup_exactly_once w MODEL_PATH :
  environ w !! "MODEL_PATH" = Some MODEL_PATH →
  lookups (trace (run w)) = [(MODEL_PATH, true)] ∧
  length (lookups (trace (run w))) = 1%nat ∧
  (∀ later : nat → string → bool → Reply,
     run (mkWorld (environ w)
            (λ k, match k with O => hub w O | S k' => later k' end)) = run w).
Proof.
  intros Henv.
  assert (lookups (trace (run w)) = [(MODEL_PATH, true)]) as Hone.
  { destruct (run_path w); simplify_eq; reflexivity. }
  split; [exact Hone|]. split; [by rewrite Hone|].
  intros later. by apply run_first_reply with MODEL_PATH.
Qed.

Lemma lookup_exactly_once_witness :
  let w := mkWorld (<["MODEL_PATH" := "org/model"]> ∅)
             (λ k _ _, match k with
                       | O => Raises (ReadTimeout "Read timed out.")
                       | S _ => Returns (mkInfo (Some files_10_20_None))
                       end) in
  environ w !! "MODEL_PATH" = Some "org/model" ∧
  lookups (trace (run w)) = [("org/model", true)] ∧
  terminal (run w) = Exited 3.
Proof.
  intros w.
  split; [reflexivity|]. split; [|reflexivity].
  apply (lookup_exactly_once w "org/model"). reflexivity.
Defined.

(** ** The two streams *)

Lemma newline_free_digits d : newline_free (NilEmpty.string_of_uint d) = true.
Proof. induction d; simpl; auto. Qed.

Lemma newline_free_str_int t : newline_free (str_int t) = true.
Proof.
  unfold str_int, NilZero.string_of_int, NilZero.string_of_uint.
  destruct (Z.to_int t) as [d|d]; destruct d; simpl;
    auto using newline_free_digits.
Qed.

Lemma body_raises_not_success w MODEL_PATH e :
  environ w !! "MODEL_PATH" = Some MODEL_PATH →
  body_raises w MODEL_PATH e →
  ¬ lookup_succeeds w.
Proof.
  intros Henv Hbody (id & fs & Henv' & Hhub).
  assert (id = MODEL_PATH) as -> by congruence.
  destruct Hbody as [H|[H _]]; congruence.
Qed.

Lemma no_stdout_write_call_stderr MODEL_PATH texts :
  Forall (λ ev, ¬ writes_to Stdout ev)
    (call_event MODEL_PATH :: (Write Stderr <$> texts)).
Proof.
  constructor; [by intros [? ?]|].
  induction texts as [|t texts IH]; constructor; [|done].
  intros [? ?]. congruence.
Qed.

(** What [str_int] writes reads back, as a decimal numeral, to the int
    it was given. *)
Lemma str_int_reads_back (t : Z) :
  Z.of_int <$> NilZero.int_of_string (str_int t) = Some t.
Proof.
  unfold str_int. rewrite NilZero.isi.
  - simpl. by rewrite DecimalZ.of_to.
  - destruct t; try discriminate.
    intros [= H]. by apply DecimalPos.Unsigned.to_uint_nonnil in H.
  - destruct t; try discriminate.
    intros [= H]. by apply DecimalPos.Unsigned.to_uint_nonnil in H.
Qed.

(** C9: standard output is written on the success path only, and then it
    holds one line, the decimal numeral of the sum of the sizes of the
    files the lookup returned, while standard error stays empty; on
    every other path standard output stays empty and every write of the
    script goes to standard error. *)
Theorem stdout_only_on_success w :
  (∃ MODEL_PATH fs text,
     environ w !! "MODEL_PATH" = Some MODEL_PATH ∧
     hub w 0 MODEL_PATH true = Returns (mkInfo (Some fs)) ∧
     stdout (run w) = line text ∧
     text = str_int (sum_of_sizes_spec fs) ∧
     newline_free text = true ∧
     Z.of_int <$> NilZero.int_of_string text = Some (sum_of_sizes_spec fs) ∧
     stderr (run w) = EmptyString ∧
     terminal (run w) = Exited 0)
  ∨
  (¬ lookup_succeeds w ∧
   stdout (run w) = EmptyString ∧
   Forall (λ ev, ¬ writes_to Stdout ev) (trace (run w)) ∧
   terminal (run w) ≠ Exited 0).
Proof.
  destruct (run_path w) as
    [Henv|id fs Henv Hhub|id e Henv Hb _|id e Henv Hb _ _
    |id e Henv Hb _ _ _|id e Henv Hb _ _ _].
  - right. split; [|by repeat split].
    intros (id & fs & Henv' & _). congruence.
  - left. exists id, fs, (str_int (sum_of_sizes_spec fs)).
    split; [done|]. split; [done|]. split.
    { unfold stdout, outcome_success, call_event. cbn [trace].
      by rewrite written_one_write, total_size_spec. }
    split; [done|]. split; [apply newline_free_str_int|].
    split; [apply str_int_reads_back|done].
  - right. split; [by eapply body_raises_not_success|].
    split; [done|]. split; [|done].
    apply (no_stdout_write_call_stderr id [_; _]).
  - right. split; [by eapply body_raises_not_success|].
    split; [done|]. split; [|done].
    apply (no_stdout_write_call_stderr id [_; _; _]).
  - right. split; [by eapply body_raises_not_success|].
    split; [done|]. split; [|done].
    apply (no_stdout_write_call_stderr id [_]).
  - right. split; [by eapply body_raises_not_success|].
    split; [done|]. split; [|done].
    apply (no_stdout_write_call_stderr id []).
Qed.

(** ** The order of the clauses *)

(** The exception the body ends on obeys the class hierarchy when the
    hub's exceptions do: the [TypeError] of line 8 is not a
    [GatedRepoError]. *)
Lemma body_raises_hierarchy w MODEL_PATH e :
  hub_subclassing w → body_raises w MODEL_PATH e → gated_is_not_found e.
Proof.
  intros Hsub [Hhub|[_ ->]]; [by eapply Hsub|].
  intros Hgated. discriminate Hgated.
Qed.

Lemma after_call_without_gated w MODEL_PATH e :
  gated_is_not_found e →
  after_call clauses_without_gated w MODEL_PATH e = after_call clauses w MODEL_PATH e.
Proof.
  intros Hsub. unfold after_call. simpl.
  destruct (isinstance e "RepositoryNotFoundError") eqn:Hnf; [done|].
  destruct (isinstance e "GatedRepoError") eqn:Hgated; [|done].
  specialize (Hsub Hgated). congruence.
Qed.

(** With the hierarchy that the client library declares, lines 13 to 17
    are dead code: the script without them runs the same in every
    world. *)
Lemma script_without_gated w :
  hub_subclassing w → run_py (script clauses_without_gated) w = run w.
Proof.
  intros Hsub. unfold run, main.
  destruct (environ w !! "MODEL_PATH") as [MODEL_PATH|] eqn:Henv.
  2: { by rewrite !(script_unset _ _ Henv). }
  destruct (hub w 0 MODEL_PATH true) as [[[fs|]]|e] eqn:Hhub.
  - by rewrite !(script_returns _ _ _ Henv _ Hhub).
  - rewrite !(script_returns_None _ _ _ Henv Hhub).
    apply after_call_without_gated.
    apply (body_raises_hierarchy w MODEL_PATH); [done|]. by right.
  - rewrite !(script_raises _ _ _ Henv _ Hhub).
    apply after_call_without_gated. by eapply Hsub.
Qed.

(** C10: [GatedRepoError] being a subclass of [RepositoryNotFoundError],
    every [GatedRepoError] the lookup raises is caught by the first
    clause, which prints the "Repository Not Found" lines and exits with
    status 1; the clause for [GatedRepoError] on lines 13 to 17 is never
    entered: the exit status is never 2 and deleting the clause changes
    no run. *)
Theorem gated_caught_by_not_found_clause w :
  hub_subclassing w →
  (∀ MODEL_PATH e,
     environ w !! "MODEL_PATH" = Some MODEL_PATH →
     hub w 0 MODEL_PATH true = Raises e →
     isinstance e "GatedRepoError" = true →
     run w = outcome_not_found MODEL_PATH ∧
     stderr (run w) =
       line ("Repository Not Found: " +:+ MODEL_PATH) +:+
       line "Check the model name or ensure it exists on HuggingFace." ∧
     exit_status (terminal (run w)) = Some 1) ∧
  terminal (run w) ≠ Exited 2 ∧
  (∀ MODEL_PATH, run w ≠ outcome_gated MODEL_PATH) ∧
  run_py (script clauses_without_gated) w = run w.
Proof.
  intros Hsub. split; [|split; [|split]].
  - intros MODEL_PATH e Henv Hhub Hgated.
    assert (run w = outcome_not_found MODEL_PATH) as ->.
    { unfold run, main. rewrite (script_raises _ _ _ Henv _ Hhub).
      apply after_call_not_found. by eapply Hsub. }
    split; [done|]. split; [apply stderr_not_found|done].
  - destruct (run_path w) as
      [Henv|id fs Henv Hhub|id e Henv Hb Hnf|id e Henv Hb Hnf Hgated
      |id e Henv Hb _ _ _|id e Henv Hb _ _ _]; try discriminate.
    pose proof (body_raises_hierarchy w id e Hsub Hb Hgated). congruence.
  - intros MODEL_PATH Hrun.
    destruct (run_path w) as
      [Henv|id fs Henv Hhub|id e Henv Hb Hnf|id e Henv Hb Hnf Hgated
      |id e Henv Hb _ _ _|id e Henv Hb _ _ _]; try discriminate.
    pose proof (body_raises_hierarchy w id e Hsub Hb Hgated). congruence.
  - by apply script_without_gated.
Qed.

(** ** A gated repository *)

Lemma gated_caught_by_not_found_clause_witness :
  hub_subclassing gated_world ∧
  environ gated_world !! "MODEL_PATH" = Some "org/gated-model" ∧
  run gated_world = outcome_not_found "org/gated-model" ∧
  terminal (run gated_world) ≠ Exited 2.
Proof.
  destruct (gated_caught_by_not_found_clause gated_world)
    as (Hcaught & Hnot2 & _ & _).
  { intros k repo_id fm e [= <-] _. reflexivity. }
  split; [intros k repo_id fm e [= <-] _; reflexivity|].
  split; [reflexivity|]. split; [|exact Hnot2].
  apply (Hcaught "org/gated-model"
           (GatedRepoError "403 Client Error. Cannot access gated repo."));
    reflexivity.
Defined.

(** The clause for [GatedRepoError] does what lines 13 to 17 say when it
    is entered, which takes an exception that is a [GatedRepoError] and
    not a [RepositoryNotFoundError]. *)
Lemma gated_clause_when_entered w MODEL_PATH e :
  environ w !! "MODEL_PATH" = Some MODEL_PATH →
  hub w 0 MODEL_PATH true = Raises e →
  isinstance e "RepositoryNotFoundError" = false →
  isinstance e "GatedRepoError" = true →
  stderr (run w) =
    line ("Model requires authentication: " +:+ MODEL_PATH) +:+
    line "Set HF_TOKEN environment variable with a valid HuggingFace token." +:+
    line ("Cannot access gated repo: " +:+ MODEL_PATH) ∧
  terminal (run w) = Exited 2.
Proof.
  intros Henv Hhub Hnf Hgated. unfold run, main.
  rewrite (script_raises _ _ _ Henv _ Hhub), after_call_gated by done.
  split; [apply stderr_gated|done].
Qed.

(** C2, which the script misses: for a gated repository the lookup raises
    [GatedRepoError]; the script answers with the two "Repository Not
    Found" lines and status 1, and writes none of the three lines of the
    gated clause. *)
Theorem gated_repo_reported_as_not_found :
  stderr (run gated_world) =
    line "Repository Not Found: org/gated-model" +:+
    line "Check the model name or ensure it exists on HuggingFace." ∧
  stderr (run gated_world) ≠
    line "Model requires authentication: org/gated-model" +:+
    line "Set HF_TOKEN environment variable with a valid HuggingFace token." +:+
    line "Cannot access gated repo: org/gated-model" ∧
  terminal (run gated_world) = Exited 1.
Proof. split; [reflexivity|]. split; [discriminate|reflexivity]. Qed.

(** ** Exit statuses *)

(** The script itself ends with no status other than 0, 1, 2 and 3:
    these are the end of the file and the three calls of [sys.exit]. *)
Lemma exit_status_range w c :
  terminal (run w) = Exited c → c ∈ [0; 1; 2; 3].
Proof.
  destruct (run_path w); intros [= <-]; set_solver.
Qed.

(** C8, which the script misses: the statuses stay within 0, 1, 2 and 3,
    but a gated repository ends with status 1, the status of a
    repository that does not exist, and not with 2. *)
Theorem gated_repo_exit_status_1 :
  isinstance (GatedRepoError "403 Client Error. Cannot access gated repo.")
    "GatedRepoError" = true ∧
  exit_status (terminal (run gated_world)) = Some 1 ∧
  exit_status (terminal (run gated_world)) ≠ Some 2 ∧
  exit_status (terminal (run gated_world)) =
    exit_status (terminal
      (run (world_of "org/gated-model"
              (Raises (RepositoryNotFoundError "404 Client Error."))))).
Proof. repeat split. discriminate. Qed.

(** * Further properties of the script *)

(** ** A record without a list of files *)

(** X1: when the lookup returns a record whose [siblings] is [None], line
    8 raises [TypeError] before it prints; the last clause reports it as
    a failure of the fetch, with status 3 and nothing on standard
    output. *)
Theorem missing_file_list_exits_3 w MODEL_PATH :
  environ w !! "MODEL_PATH" = Some MODEL_PATH →
  hub w 0 MODEL_PATH true = Returns (mkInfo None) →
  stderr (run w) =
    line "Failed to fetch model info: 'NoneType' object is not iterable" ∧
  stdout (run w) = EmptyString ∧
  lookups (trace (run w)) = [(MODEL_PATH, true)] ∧
  terminal (run w) = Exited 3.
Proof.
  intros Henv Hhub. unfold run, main.
  rewrite (script_returns_None _ _ _ Henv Hhub), after_call_other by done.
  split; [apply stderr_other|done].
Qed.

Lemma missing_file_list_exits_3_witness :
  let w := world_of "org/model" (Returns (mkInfo None)) in
  environ w !! "MODEL_PATH" = Some "org/model" ∧
  hub w 0 "org/model" true = Returns (mkInfo None) ∧
  stdout (run w) = EmptyString ∧
  terminal (run w) = Exited 3.
Proof.
  intros w.
  destruct (missing_file_list_exits_3 w "org/model")
    as (_ & Hout & _ & Hexit); [reflexivity|reflexivity|].
  split; [reflexivity|]. split; [reflexivity|].
  split; [exact Hout|exact Hexit].
Defined.

(** ** Exceptions outside [Exception] *)

(** X2: an exception of the lookup that is an instance of none of the
    three classes of the clauses, so not of [Exception] either, is not
    caught: the process ends on it after the one call, and the script
    has written nothing on either stream. *)
Theorem non_exception_propagates w MODEL_PATH e :
  environ w !! "MODEL_PATH" = Some MODEL_PATH →
  hub w 0 MODEL_PATH true = Raises e →
  isinstance e "RepositoryNotFoundError" = false →
  isinstance e "GatedRepoError" = false →
  isinstance e "Exception" = false →
  run w = mkOutcome [CallModelInfo MODEL_PATH true] (Crashed e) ∧
  stdout (run w) = EmptyString ∧
  stderr (run w) = EmptyString.
Proof.
  intros Henv Hhub Hnf Hgated Hexc. unfold run, main.
  rewrite (script_raises _ _ _ Henv _ Hhub), after_call_uncaught by done.
  done.
Qed.

Lemma non_exception_propagates_witness :
  let w := world_of "org/model" (Raises KeyboardInterrupt) in
  environ w !! "MODEL_PATH" = Some "org/model" ∧
  hub w 0 "org/model" true = Raises KeyboardInterrupt ∧
  isinstance KeyboardInterrupt "RepositoryNotFoundError" = false ∧
  isinstance KeyboardInterrupt "GatedRepoError" = false ∧
  isinstance KeyboardInterrupt "Exception" = false ∧
  terminal (run w) = Crashed KeyboardInterrupt.
Proof.
  intros w.
  destruct (non_exception_propagates w "org/model" KeyboardInterrupt)
    as (Hrun & _ & _); try reflexivity.
  split; [reflexivity|]. split; [reflexivity|]. split; [reflexivity|].
  split; [reflexivity|]. split; [reflexivity|].
  by rewrite Hrun.
Defined.

(** ** The order of the files *)

Lemma total_size_perm fs gs : fs ≡ₚ gs → total_size fs = total_size gs.
Proof.
  induction 1 as [|f fs gs _ IH|f g fs|fs gs hs _ IH1 _ IH2].
  - done.
  - by rewrite !total_size_cons, IH.
  - rewrite !total_size_cons. lia.
  - by rewrite IH1.
Qed.

Lemma total_size_app fs gs : total_size (fs ++ gs) = total_size fs + total_size gs.
Proof.
  induction fs as [|f fs IH]; [done|].
  rewrite <- app_comm_cons, !total_size_cons, IH. lia.
Qed.

(** X4: the run does not depend on the order in which the hub lists the
    files: two replies that list the same files in different orders give
    the same trace, so the same printed total, and the same status. *)
Theorem file_order_irrelevant w w' MODEL_PATH fs gs :
  environ w !! "MODEL_PATH" = Some MODEL_PATH →
  environ w' !! "MODEL_PATH" = Some MODEL_PATH →
  hub w 0 MODEL_PATH true = Returns (mkInfo (Some fs)) →
  hub w' 0 MODEL_PATH true = Returns (mkInfo (Some gs)) →
  fs ≡ₚ gs →
  run w = run w' ∧ stdout (run w) = stdout (run w').
Proof.
  intros Henv Henv' Hhub Hhub' Hperm.
  assert (run w = run w') as ->; [|done].
  unfold run, main.
  rewrite (script_returns _ _ _ Henv _ Hhub), (script_returns _ _ _ Henv' _ Hhub').
  by rewrite (total_size_perm fs gs Hperm).
Qed.

Lemma file_order_irrelevant_witness :
  let w := world_of "org/model" (Returns (mkInfo (Some files_10_20_None))) in
  let w' := world_of "org/model" (Returns (mkInfo (Some (reverse files_10_20_None)))) in
  files_10_20_None ≡ₚ reverse files_10_20_None ∧
  stdout (run w) = stdout (run w').
Proof.
  intros w w'.
  assert (files_10_20_None ≡ₚ reverse files_10_20_None) as Hperm.
  { symmetry. apply reverse_Permutation. }
  split; [exact Hperm|].
  apply (file_order_irrelevant w w' "org/model" files_10_20_None
           (reverse files_10_20_None)); [reflexivity..|exact Hperm].
Defined.

(** X5: the total of a listing that is the concatenation of two listings
    is the sum of their totals, and the entries whose size is [None] or
    0 add nothing: the listing without them has the same total. *)
Theorem total_size_additive fs gs :
  total_size (fs ++ gs) = total_size fs + total_size gs ∧
  total_size (filter (λ f, size f ≠ None ∧ size f ≠ Some 0) fs) = total_size fs.
Proof.
  split; [apply total_size_app|].
  induction fs as [|f fs IH]; [done|].
  rewrite filter_cons. case_decide as Hf.
  - by rewrite !total_size_cons, IH.
  - rewrite total_size_cons, IH, size_or_0_default.
    destruct (size f) as [n|] eqn:Hsize; simpl; [|lia].
    destruct (decide (n = 0)) as [->|Hn]; [lia|].
    exfalso. apply Hf. split; congruence.
Qed.

(** ** From the status back to its cause *)


(** ** Reading the total back *)

(** The decimal text of an int determines the int. *)
Lemma str_int_inj a b : str_int a = str_int b → a = b.
Proof.
  intros Hab.
  assert (∀ z, NilZero.int_of_string (str_int z) = Some (Z.to_int z)) as Hparse.
  { intros z. apply NilZero.isi; destruct z; try discriminate;
      intros [= H]; by apply DecimalPos.Unsigned.to_uint_nonnil in H. }
  assert (Z.to_int a = Z.to_int b) as Hint.
  { pose proof (Hparse a) as Ha. rewrite Hab, Hparse in Ha. congruence. }
  by rewrite <- (DecimalZ.of_to a), <- (DecimalZ.of_to b), Hint.
Qed.

(** A text without a newline is recovered from its line. *)
Lemma line_inj s s' :
  newline_free s = true → newline_free s' = true → line s = line s' → s = s'.
Proof.
  revert s'. induction s as [|c s IH]; intros [|c' s'] Hs Hs' Heq; [done| | |].
  - injection Heq as <- _. discriminate Hs'.
  - injection Heq as -> _. discriminate Hs.
  - injection Heq as -> Heq. f_equal.
    simpl in Hs, Hs'. apply andb_prop in Hs as [_ Hs], Hs' as [_ Hs'].
    by apply IH.
Qed.

(** X8: the text on standard output determines the total: two successful
    runs that print the same text summed to the same number. *)
Theorem printed_text_determines_total w w' MODEL_PATH MODEL_PATH' fs gs :
  environ w !! "MODEL_PATH" = Some MODEL_PATH →
  environ w' !! "MODEL_PATH" = Some MODEL_PATH' →
  hub w 0 MODEL_PATH true = Returns (mkInfo (Some fs)) →
  hub w' 0 MODEL_PATH' true = Returns (mkInfo (Some gs)) →
  stdout (run w) = stdout (run w') →
  total_size fs = total_size gs.
Proof.
  intros Henv Henv' Hhub Hhub'. unfold run, main.
  rewrite (script_returns _ _ _ Henv _ Hhub), (script_returns _ _ _ Henv' _ Hhub').
  unfold stdout. cbn [trace]. rewrite !written_one_write. simpl.
  intros Hout. apply str_int_inj.
  by apply line_inj; [apply newline_free_str_int..|].
Qed.

Lemma printed_text_determines_total_witness :
  let fs := [mkSibling "a.bin" (Some 30)] in
  let w := world_of "org/model" (Returns (mkInfo (Some files_10_20_None))) in
  let w' := world_of "org/other" (Returns (mkInfo (Some fs))) in
  stdout (run w) = stdout (run w') ∧
  total_size files_10_20_None = total_size fs.
Proof.
  intros fs w w'. split; [reflexivity|].
  apply (printed_text_determines_total w w' "org/model" "org/other");
    reflexivity.
Defined.
